(** * Gregorian to Javanese calendar conversion (src/javanese-calendar.ts)

    A shallow embedding of [toJavanese] and of its three helpers, with the
    properties the specification states about them.

    Numbers.  Every JavaScript number that the code manipulates is an
    integer far below 2^53 in magnitude (a valid [Date] holds an integral
    time value of at most 8.64e15 ms), so additions, subtractions and
    products are exact and are modelled on [Z].  The three divisions are
    each followed by [Math.floor] or [Math.ceil]; the divisors are
    86400000, 8 and 7 and the quotients stay below 2^27, where the rounding
    of the double division (at most 2^-27) is smaller than the distance
    1/86400000 of an inexact quotient to the next integer, so the rounded
    result is the floor (or ceiling) of the exact quotient.  The operator
    [%] is the truncating remainder, [Z.rem].  An invalid [Date] (time value
    NaN) is outside the model. *)

From Equations Require Import Equations.
From Stdlib Require Import ZArith List String Bool Lia.
Import ListNotations.

Local Open Scope string_scope.
Local Open Scope Z_scope.

(** ** The host's [Date] object *)

(** A [Date] wraps its time value: milliseconds since 1970-01-01T00:00Z. *)
Record Date : Set := mkDate { getTime : Z }.

Definition msPerDay : Z := 86400000.

(** Days from 1970-01-01 to the given proleptic Gregorian civil date
    (month 1..12), as the host computes them when it parses an ISO string. *)
Definition DayFromCivil (y m d : Z) : Z :=
  let y' := if m <=? 2 then y - 1 else y in
  let era := y' / 400 in
  let yoe := y' - era * 400 in
  let mp := if m <=? 2 then m + 9 else m - 3 in
  let doy := (153 * mp + 2) / 5 + d - 1 in
  let doe := yoe * 365 + yoe / 4 - yoe / 100 + doy in
  era * 146097 + doe - 719468.

Definition MakeTime (h mi s ms : Z) : Z :=
  h * 3600000 + mi * 60000 + s * 1000 + ms.

(** [new Date('YYYY-MM-DDTHH:mm:ss.sssZ')]: the string ends in Z, so the
    fields are read as UTC. *)
Definition Date_of_iso_utc (y m d h mi s ms : Z) : Date :=
  mkDate (DayFromCivil y m d * msPerDay + MakeTime h mi s ms).

(** [Day(t)] and [WeekDay(t)] of the language definition; 0 is Sunday. *)
Definition Day (t : Z) : Z := t / msPerDay.

Definition WeekDay (t : Z) : Z := (Day t + 4) mod 7.

(** [arr[i]] for a number [i]: [undefined] (here [None]) outside the array. *)
Definition index {A : Type} (arr : list A) (i : Z) : option A :=
  if i <? 0 then None else nth_error arr (Z.to_nat i).

(** [Number.MAX_SAFE_INTEGER], 2^53 - 1: up to it in magnitude every integer
    and its neighbours are doubles, so integer arithmetic is exact. *)
Definition MAX_SAFE_INTEGER : Z := 9007199254740991.

(** [Math.ceil(a / b)] for a positive divisor. *)
Definition ceil_div (a b : Z) : Z := - ((- a) / b).

(** ** Result type *)

Module Cycle.
Record t : Set := mk { day : Z; name : option string }.
End Cycle.

Record JavaneseDate : Set := mkJavaneseDate {
  year : Z;
  month : Z;
  day : Z;
  monthName : option string;
  dayName : option string;
  pasaran : Cycle.t;
  wuku : Cycle.t
}.

(** ** Javanese constants *)

Definition DINTEN : list string :=
  ["Ahad"; "Senin"; "Selasa"; "Rabu"; "Kamis"; "Jumat"; "Sabtu"].

Definition PASARAN : list string :=
  ["Kliwon"; "Legi"; "Pahing"; "Pon"; "Wage"].

Definition SASIH : list string :=
  ["Sura"; "Sapar"; "Mulud"; "Bakda Mulud"; "Jumadilawal"; "Jumadilakir";
   "Rejeb"; "Ruwah"; "Pasa"; "Sawal"; "Dulkangidah"; "Besar"].

Definition WULAN : list string :=
  ["Sura"; "Sapar"; "Mulud"; "Bakda Mulud"; "Jumadil Awal"; "Jumadil Akhir";
   "Rejeb"; "Ruwah"; "Pasa"; "Sawal"; "Sela"; "Besar"].

Definition WUKU : list string :=
  ["Sinta"; "Landep"; "Wukir"; "Kurantil"; "Tolu"; "Gumbreg";
   "Warigalit"; "Warigagung"; "Julungwangi"; "Sungsang"; "Galungan";
   "Kuningan"; "Langkir"; "Mandasiya"; "Julungpujut"; "Pahang";
   "Kuruwelut"; "Marakeh"; "Tambir"; "Medangkungan"; "Maktal";
   "Wuye"; "Manahil"; "Prangbakat"; "Bala"; "Wugu"; "Wayang";
   "Kulawu"; "Dukut"; "Watugunung"].

(** ** Helpers *)

(** The intermediate [yearInCycle] of [isJavaneseLeapYear].  The source
    computes it on doubles; the value on [Z] is the source's for every year
    within [MAX_SAFE_INTEGER] in magnitude, which covers every year that
    [toJavanese] passes (1795 to 284087 over the valid instants). *)
Definition yearInCycle (year : Z) : Z :=
  let cycle := ceil_div (year - 1) 8 in
  year - (cycle - 1) * 8.

Definition isJavaneseLeapYear (year : Z) : bool :=
  existsb (Z.eqb (yearInCycle year)) [2; 5; 8].

Definition getDaysInJavaneseMonth (year month : Z) : Z :=
  if (month =? 12) && isJavaneseLeapYear year then 30
  else if Z.rem month 2 =? 1 then 30 else 29.

Definition getTotalDaysInJavaneseYear (year : Z) : Z :=
  if isJavaneseLeapYear year then 355 else 354.

Lemma getTotalDaysInJavaneseYear_range (y : Z) :
  354 <= getTotalDaysInJavaneseYear y <= 355.
Proof. unfold getTotalDaysInJavaneseYear. destruct (isJavaneseLeapYear y); lia. Qed.

Lemma getDaysInJavaneseMonth_range (y m : Z) :
  29 <= getDaysInJavaneseMonth y m <= 30.
Proof.
  unfold getDaysInJavaneseMonth.
  destruct ((m =? 12) && isJavaneseLeapYear y); [lia|].
  destruct (Z.rem m 2 =? 1); lia.
Qed.

(** ** The two subtraction loops of [toJavanese]

    The local [daysInYear] (resp. [daysInMonth]) is assigned
    [getTotalDaysInJavaneseYear(year)] before the loop and again at the end
    of every iteration, so at each test of the guard it is the helper's
    value at the current [year] (resp. [month]); the loops are modelled on
    the remaining variables.  Each returns the final [(julianDay, year)]
    (resp. [(julianDay, month)]). *)

Equations? year_loop (julianDay year : Z) : Z * Z
  by wf (Z.to_nat julianDay) lt :=
  year_loop julianDay year
    with Z_ge_dec julianDay (getTotalDaysInJavaneseYear year) => {
    | left _ := year_loop (julianDay - getTotalDaysInJavaneseYear year) (year + 1);
    | right _ := (julianDay, year) }.
Proof.
  match goal with H : _ >= getTotalDaysInJavaneseYear ?y |- _ =>
    pose proof (getTotalDaysInJavaneseYear_range y) end.
  lia.
Qed.

Equations? month_loop (year julianDay month : Z) : Z * Z
  by wf (Z.to_nat julianDay) lt :=
  month_loop year julianDay month
    with Z_ge_dec julianDay (getDaysInJavaneseMonth year month) => {
    | left _ := month_loop year (julianDay - getDaysInJavaneseMonth year month) (month + 1);
    | right _ := (julianDay, month) }.
Proof.
  match goal with H : _ >= getDaysInJavaneseMonth ?y ?m |- _ =>
    pose proof (getDaysInJavaneseMonth_range y m) end.
  lia.
Qed.

(** ** The conversion *)

Definition epochAnchor : Date := Date_of_iso_utc 1867 3 4 17 0 0 0.

(** Whole days elapsed since the anchor: the initial [julianDay]. *)
Definition elapsedDays (date : Date) : Z :=
  (getTime date - getTime epochAnchor) / 86400000.

Section Host.

(** The host's local time zone adjustment (ms) in force at a UTC instant;
    [getDay] reads the week day of the local time. *)
Variable LocalTZA : Z -> Z.

Definition getDay (date : Date) : Z :=
  WeekDay (getTime date + LocalTZA (getTime date)).

Definition toJavanese (date : Date) : JavaneseDate :=
  let julianDay := elapsedDays date in
  let year := 1795 in
  let '(julianDay, year) := year_loop julianDay year in
  let month := 1 in
  let '(julianDay, month) := month_loop year julianDay month in
  let day := julianDay + 1 in
  let dayOfWeek := getDay date in
  let pasaranDay := Z.rem (dayOfWeek + 1) 5 in
  let wukuDay := Z.rem ((julianDay + 1) / 7) 30 in
  {| year := year;
     month := month;
     day := day;
     monthName := index WULAN (month - 1);
     dayName := index DINTEN dayOfWeek;
     pasaran := {| Cycle.day := pasaranDay; Cycle.name := index PASARAN pasaranDay |};
     wuku := {| Cycle.day := wukuDay; Cycle.name := index WUKU wukuDay |} |}.

End Host.

(** [generateJavaneseTimestamp] of src/index.ts forwards to [toJavanese]. *)
Definition generateJavaneseTimestamp := toJavanese.

Lemma epochAnchor_time : getTime epochAnchor = -3244950000000.
Proof. reflexivity. Qed.

(** ** Test-side vocabulary *)

(** The instant [n] days after [date]. *)
Definition addDays (date : Date) (n : Z) : Date :=
  mkDate (getTime date + n * msPerDay).

(** The twelve month numbers, in order. *)
Definition months : list Z := map Z.of_nat (seq 1 12).

Definition sumZ (l : list Z) : Z := fold_right Z.add 0 l.

(** Total length of the [n] months starting at month [m]. *)
Fixpoint sumMonths (y m : Z) (n : nat) : Z :=
  match n with
  | O => 0
  | S n' => getDaysInJavaneseMonth y m + sumMonths y (m + 1) n'
  end.

(** Total length of the [n] years starting at year [y]. *)
Fixpoint sumYears (y : Z) (n : nat) : Z :=
  match n with
  | O => 0
  | S n' => getTotalDaysInJavaneseYear y + sumYears (y + 1) n'
  end.

(** Days between the first day of 1795 and the first day of year [y]. *)
Definition daysBeforeYear (y : Z) : Z := sumYears 1795 (Z.to_nat (y - 1795)).

(** Days between the first day of year [y] and the first day of its month [m]. *)
Definition daysBeforeMonth (y m : Z) : Z := sumMonths y 1 (Z.to_nat (m - 1)).

(** The three numeric fields of a result. *)
Definition ymd (r : JavaneseDate) : Z * Z * Z := (year r, month r, day r).

(** Lexicographic order on (year, month, day). *)
Definition ymd_le (a b : Z * Z * Z) : Prop :=
  let '(y1, m1, d1) := a in
  let '(y2, m2, d2) := b in
  y1 < y2 \/ (y1 = y2 /\ (m1 < m2 \/ (m1 = m2 /\ d1 <= d2))).

(** The [n] consecutive years starting at [y]. *)
Definition yearsFrom (y : Z) (n : nat) : list Z :=
  map (fun k => y + Z.of_nat k) (seq 0 n).

(** The specification's position of a year in its 8-year cycle, cycle 1
    being the years 1 to 8: it follows the specification's words and is
    compared below with what the code computes. *)
Definition spec_positionInCycle (year : Z) : Z := (year - 1) mod 8 + 1.

(** [i] is a valid index of [arr]. *)
Definition in_bounds {A : Type} (arr : list A) (i : Z) : Prop :=
  0 <= i < Z.of_nat (List.length arr).

(** * Properties *)

(** ** The leap-year rule *)

Lemma ceil_div_8 (a : Z) :
  ceil_div a 8 = if a mod 8 =? 0 then a / 8 else a / 8 + 1.
Proof.
  unfold ceil_div.
  destruct (Z.eqb_spec (a mod 8) 0); Z.to_euclidean_division_equations; lia.
Qed.

(** What the code's intermediate value is, in terms of the specification's
    position: they agree except on the first year of a cycle, where the
    code has 9. *)
Lemma yearInCycle_spec (y : Z) :
  yearInCycle y =
  if spec_positionInCycle y =? 1 then 9 else spec_positionInCycle y.
Proof.
  unfold yearInCycle, spec_positionInCycle. rewrite ceil_div_8.
  destruct (Z.eqb_spec ((y - 1) mod 8) 0) as [E|E];
    destruct (Z.eqb_spec ((y - 1) mod 8 + 1) 1); try lia;
    Z.to_euclidean_division_equations; lia.
Qed.

Lemma spec_positionInCycle_range (y : Z) : 1 <= spec_positionInCycle y <= 8.
Proof. unfold spec_positionInCycle. Z.to_euclidean_division_equations; lia. Qed.

Lemma yearInCycle_periodic (y k : Z) : yearInCycle (y + 8 * k) = yearInCycle y.
Proof.
  rewrite !yearInCycle_spec. unfold spec_positionInCycle.
  replace (y + 8 * k - 1) with (y - 1 + k * 8) by lia.
  rewrite Z.mod_add by lia. reflexivity.
Qed.

Lemma isJavaneseLeapYear_periodic (y k : Z) :
  isJavaneseLeapYear (y + 8 * k) = isJavaneseLeapYear y.
Proof. unfold isJavaneseLeapYear. rewrite yearInCycle_periodic. reflexivity. Qed.

Lemma isJavaneseLeapYear_iff (y : Z) :
  isJavaneseLeapYear y = true <-> In (yearInCycle y) [2; 5; 8].
Proof.
  unfold isJavaneseLeapYear. rewrite existsb_exists. split.
  - intros [x [Hin Heq]]. apply Z.eqb_eq in Heq. subst x. exact Hin.
  - intros Hin. exists (yearInCycle y). split; [exact Hin | apply Z.eqb_refl].
Qed.

(** Any year is a year of the first cycle shifted by whole cycles. *)
Lemma year_decompose (y : Z) :
  exists p q, 1 <= p <= 8 /\ y = p + 8 * q.
Proof.
  exists (spec_positionInCycle y), ((y - 1) / 8). split.
  - apply spec_positionInCycle_range.
  - unfold spec_positionInCycle. Z.to_euclidean_division_equations; lia.
Qed.

Lemma leap_count_8 (y : Z) :
  List.length (filter isJavaneseLeapYear (yearsFrom y 8)) = 3%nat.
Proof.
  destruct (year_decompose y) as [p [q [Hp ->]]].
  unfold yearsFrom. cbn [seq map Z.of_nat Pos.of_succ_nat Pos.succ filter].
  repeat match goal with
  | |- context [isJavaneseLeapYear (p + 8 * q + ?k)] =>
      replace (p + 8 * q + k) with (p + k + 8 * q) by lia;
      rewrite (isJavaneseLeapYear_periodic (p + k) q)
  end.
  assert (Hc : p = 1 \/ p = 2 \/ p = 3 \/ p = 4 \/ p = 5 \/ p = 6 \/ p = 7 \/ p = 8)
    by lia.
  repeat destruct Hc as [-> | Hc]; try subst p; reflexivity.
Qed.

Example yearInCycle_first_years :
  map yearInCycle [1; 2; 3; 4; 5; 6; 7; 8; 9; 10] = [9; 2; 3; 4; 5; 6; 7; 8; 9; 2].
Proof. reflexivity. Qed.

(** C3. For every year from 1 on, [isJavaneseLeapYear] holds exactly when the
    year's position in its 8-year cycle (cycle 1 being the years 1 to 8) is
    2, 5 or 8, which is also when the code's own [yearInCycle] is 2, 5 or 8;
    any 8 consecutive years contain exactly 3 leap years; and the rule has
    period 8. *)
Theorem leap_year_rule (year : Z) (Hyear : 1 <= year) :
  (isJavaneseLeapYear year = true <-> In (spec_positionInCycle year) [2; 5; 8]) /\
  (isJavaneseLeapYear year = true <-> In (yearInCycle year) [2; 5; 8]) /\
  List.length (filter isJavaneseLeapYear (yearsFrom year 8)) = 3%nat /\
  isJavaneseLeapYear (year + 8) = isJavaneseLeapYear year.
Proof.
  split; [| split; [apply isJavaneseLeapYear_iff | split]].
  - rewrite isJavaneseLeapYear_iff, yearInCycle_spec.
    pose proof (spec_positionInCycle_range year) as Hr.
    destruct (Z.eqb_spec (spec_positionInCycle year) 1) as [E|E].
    + rewrite E. cbn [In]. split; intros H; exfalso; lia.
    + reflexivity.
  - apply leap_count_8.
  - replace (year + 8) with (year + 8 * 1) by lia.
    apply isJavaneseLeapYear_periodic.
Qed.

Lemma leap_year_rule_witness :
  1 <= 1797 /\
  (isJavaneseLeapYear 1797 = true <-> In (spec_positionInCycle 1797) [2; 5; 8]) /\
  (isJavaneseLeapYear 1797 = true <-> In (yearInCycle 1797) [2; 5; 8]) /\
  List.length (filter isJavaneseLeapYear (yearsFrom 1797 8)) = 3%nat /\
  isJavaneseLeapYear (1797 + 8) = isJavaneseLeapYear 1797.
Proof. split; [lia | apply (leap_year_rule 1797); lia]. Defined.

(** C9, as stated, fails at the first year: the code's intermediate value
    for year 1 is 9, outside [1, 8]. *)
Lemma yearInCycle_not_in_1_8 :
  1 <= 1 /\ yearInCycle 1 = 9 /\ ~ (1 <= yearInCycle 1 <= 8).
Proof. split; [lia | split; [reflexivity |]]. vm_compute. intros [_ H]. apply H. reflexivity. Qed.

(** C9, amended. For every year from 1 on, the intermediate value
    [year - (cycle - 1) * 8] with [cycle = ceil((year - 1) / 8)] is an
    integer in the range [2, 9]: it is 9 on the first year of each 8-year
    cycle and the position 2..8 of the year in its cycle otherwise. *)
Theorem yearInCycle_range (year : Z) (Hyear : 1 <= year) :
  2 <= yearInCycle year <= 9 /\
  yearInCycle year =
    (if spec_positionInCycle year =? 1 then 9 else spec_positionInCycle year).
Proof.
  split; [| apply yearInCycle_spec].
  rewrite yearInCycle_spec.
  pose proof (spec_positionInCycle_range year).
  destruct (Z.eqb_spec (spec_positionInCycle year) 1); lia.
Qed.

Lemma yearInCycle_range_witness :
  1 <= 1801 /\ 2 <= yearInCycle 1801 <= 9 /\
  yearInCycle 1801 =
    (if spec_positionInCycle 1801 =? 1 then 9 else spec_positionInCycle 1801).
Proof. split; [lia | apply (yearInCycle_range 1801); lia]. Defined.

(** ** Month and year lengths *)

(** C2. For every year the year length is the sum of the twelve month
    lengths, and it is 355 in a leap year and 354 otherwise. *)
Theorem year_length_is_sum_of_months (year : Z) :
  getTotalDaysInJavaneseYear year =
    sumZ (map (getDaysInJavaneseMonth year) months) /\
  getTotalDaysInJavaneseYear year =
    (if isJavaneseLeapYear year then 355 else 354).
Proof.
  split; [| reflexivity].
  unfold getTotalDaysInJavaneseYear, getDaysInJavaneseMonth, months.
  cbn [seq map Z.of_nat Pos.of_succ_nat Pos.succ sumZ fold_right].
  destruct (isJavaneseLeapYear year); reflexivity.
Qed.

(** ** The year loop *)

Lemma year_loop_stop (jd y : Z) :
  jd < getTotalDaysInJavaneseYear y -> year_loop jd y = (jd, y).
Proof.
  intros H. simp year_loop.
  destruct (Z_ge_dec jd (getTotalDaysInJavaneseYear y)); [lia | reflexivity].
Qed.

Lemma year_loop_step (jd y : Z) :
  getTotalDaysInJavaneseYear y <= jd ->
  year_loop jd y = year_loop (jd - getTotalDaysInJavaneseYear y) (y + 1).
Proof.
  intros H. rewrite year_loop_equation_1 at 1.
  destruct (Z_ge_dec jd (getTotalDaysInJavaneseYear y)); [reflexivity | lia].
Qed.

(** Induction along the iterations of the year loop. *)
Lemma year_loop_induction (P : Z -> Z -> Z * Z -> Prop) :
  (forall jd y, jd < getTotalDaysInJavaneseYear y -> P jd y (jd, y)) ->
  (forall jd y, getTotalDaysInJavaneseYear y <= jd ->
     P (jd - getTotalDaysInJavaneseYear y) (y + 1)
       (year_loop (jd - getTotalDaysInJavaneseYear y) (y + 1)) ->
     P jd y (year_loop (jd - getTotalDaysInJavaneseYear y) (y + 1))) ->
  forall jd y, P jd y (year_loop jd y).
Proof.
  intros Hstop Hstep jd y. funelim (year_loop jd y).
  - apply Hstep; [lia |].
    match goal with IH : forall _ : Z -> Z -> Z * Z -> Prop, _ |- _ =>
      apply IH; assumption end.
  - apply Hstop. lia.
Qed.

(** The year never goes down. *)
Lemma year_loop_year_ge (jd y : Z) : y <= snd (year_loop jd y).
Proof.
  apply (year_loop_induction (fun _ y r => y <= snd r)); cbn [snd]; intros; lia.
Qed.

(** From a non-negative day count the loop leaves an offset inside the
    year it stops at. *)
Lemma year_loop_post (jd y : Z) :
  0 <= jd ->
  0 <= fst (year_loop jd y) < getTotalDaysInJavaneseYear (snd (year_loop jd y)).
Proof.
  apply (year_loop_induction
           (fun jd _ r => 0 <= jd -> 0 <= fst r < getTotalDaysInJavaneseYear (snd r))).
  - cbn [fst snd]. intros. lia.
  - intros jd0 y0 Hge IH Hjd. apply IH.
    pose proof (getTotalDaysInJavaneseYear_range y0). lia.
Qed.

(** A day count at least one whole year (the year first resolved) later
    resolves to a later year. *)
Lemma year_loop_strict_mono (jd1 y jd2 : Z) :
  0 <= jd1 ->
  jd1 + getTotalDaysInJavaneseYear (snd (year_loop jd1 y)) <= jd2 ->
  snd (year_loop jd1 y) < snd (year_loop jd2 y).
Proof.
  revert jd2.
  apply (year_loop_induction
           (fun jd1 y r => forall jd2, 0 <= jd1 ->
              jd1 + getTotalDaysInJavaneseYear (snd r) <= jd2 ->
              snd r < snd (year_loop jd2 y))).
  - cbn [snd]. intros jd0 y0 Hlt jd2 H1 H2.
    rewrite (year_loop_step jd2 y0) by lia.
    pose proof (year_loop_year_ge (jd2 - getTotalDaysInJavaneseYear y0) (y0 + 1)).
    lia.
  - intros jd0 y0 Hge IH jd2 H1 H2.
    pose proof (getTotalDaysInJavaneseYear_range y0) as Hy.
    pose proof (getTotalDaysInJavaneseYear_range
                  (snd (year_loop (jd0 - getTotalDaysInJavaneseYear y0) (y0 + 1)))) as Hr.
    rewrite (year_loop_step jd2 y0) by lia.
    apply IH; lia.
Qed.

(** ** The month loop *)

Lemma month_loop_stop (y jd m : Z) :
  jd < getDaysInJavaneseMonth y m -> month_loop y jd m = (jd, m).
Proof.
  intros H. simp month_loop.
  destruct (Z_ge_dec jd (getDaysInJavaneseMonth y m)); [lia | reflexivity].
Qed.

Lemma month_loop_step (y jd m : Z) :
  getDaysInJavaneseMonth y m <= jd ->
  month_loop y jd m = month_loop y (jd - getDaysInJavaneseMonth y m) (m + 1).
Proof.
  intros H. rewrite month_loop_equation_1 at 1.
  destruct (Z_ge_dec jd (getDaysInJavaneseMonth y m)); [reflexivity | lia].
Qed.

Lemma sumMonths_year (y : Z) : sumMonths y 1 12 = getTotalDaysInJavaneseYear y.
Proof.
  cbn [sumMonths]. unfold getTotalDaysInJavaneseYear, getDaysInJavaneseMonth.
  destruct (isJavaneseLeapYear y); reflexivity.
Qed.

(** From an offset inside the next [n] months the loop stops within them,
    on an offset inside the month it stops at. *)
Lemma month_loop_post (y : Z) (n : nat) :
  forall m jd, 0 <= jd < sumMonths y m n ->
    0 <= fst (month_loop y jd m) < getDaysInJavaneseMonth y (snd (month_loop y jd m)) /\
    m <= snd (month_loop y jd m) < m + Z.of_nat n.
Proof.
  induction n as [| n IH]; intros m jd H; cbn [sumMonths] in H; [lia |].
  destruct (Z_lt_ge_dec jd (getDaysInJavaneseMonth y m)) as [Hlt | Hge].
  - rewrite month_loop_stop by exact Hlt. cbn [fst snd]. lia.
  - rewrite month_loop_step by lia.
    destruct (IH (m + 1) (jd - getDaysInJavaneseMonth y m)) as [Ha Hb]; [lia |].
    split; [exact Ha | lia].
Qed.

(** ** The conversion, field by field *)

Section Fields.
Variable LocalTZA : Z -> Z.
Variable date : Date.

Let yl := year_loop (elapsedDays date) 1795.
Let ml := month_loop (snd yl) (fst yl) 1.
Let dow := getDay LocalTZA date.

Lemma toJavanese_fields :
  toJavanese LocalTZA date =
  {| year := snd yl;
     month := snd ml;
     day := fst ml + 1;
     monthName := index WULAN (snd ml - 1);
     dayName := index DINTEN dow;
     pasaran := {| Cycle.day := Z.rem (dow + 1) 5;
                   Cycle.name := index PASARAN (Z.rem (dow + 1) 5) |};
     wuku := {| Cycle.day := Z.rem ((fst ml + 1) / 7) 30;
                Cycle.name := index WUKU (Z.rem ((fst ml + 1) / 7) 30) |} |}.
Proof.
  unfold toJavanese, ml, yl, dow.
  destruct (year_loop (elapsedDays date) 1795) as [jd y]. cbn [fst snd].
  destruct (month_loop y jd 1) as [jd' m]. reflexivity.
Qed.

End Fields.

Lemma elapsedDays_neg (date : Date) :
  getTime date < getTime epochAnchor -> elapsedDays date < 0.
Proof.
  intros H. unfold elapsedDays.
  apply Z.div_lt_upper_bound; lia.
Qed.

Lemma elapsedDays_nonneg (date : Date) :
  getTime epochAnchor <= getTime date -> 0 <= elapsedDays date.
Proof.
  intros H. unfold elapsedDays. apply Z.div_pos; lia.
Qed.

Lemma getDay_range (tz : Z -> Z) (date : Date) : 0 <= getDay tz date <= 6.
Proof.
  unfold getDay, WeekDay.
  pose proof (Z.mod_pos_bound (Day (getTime date + tz (getTime date)) + 4) 7).
  lia.
Qed.

Lemma index_in_bounds {A : Type} (arr : list A) (i : Z) :
  in_bounds arr i -> exists x, index arr i = Some x.
Proof.
  unfold in_bounds, index. intros [H0 H1].
  destruct (Z.ltb_spec i 0) as [Hn | _]; [lia |].
  destruct (nth_error arr (Z.to_nat i)) as [x |] eqn:E; [exists x; reflexivity |].
  apply nth_error_None in E. lia.
Qed.

(** Two runs of the whole conversion in a host on UTC: the last day of the
    common year 1795 and the first day of 1796. *)
Example last_day_of_1795 :
  toJavanese (fun _ => 0) (addDays epochAnchor 353) =
  {| year := 1795; month := 12; day := 29;
     monthName := Some "Besar"; dayName := Some "Kamis";
     pasaran := {| Cycle.day := 0; Cycle.name := Some "Kliwon" |};
     wuku := {| Cycle.day := 4; Cycle.name := Some "Tolu" |} |}.
Proof. vm_compute. reflexivity. Qed.

Example first_day_of_1796 :
  toJavanese (fun _ => 0) (addDays epochAnchor 354) =
  {| year := 1796; month := 1; day := 1;
     monthName := Some "Sura"; dayName := Some "Jumat";
     pasaran := {| Cycle.day := 1; Cycle.name := Some "Legi" |};
     wuku := {| Cycle.day := 0; Cycle.name := Some "Sinta" |} |}.
Proof. vm_compute. reflexivity. Qed.

(** ** The epoch and the instants before it *)

(** C1. The instant of the epoch anchor, 1867-03-04T17:00:00.000Z, resolves
    to year 1795, month 1, day 1. *)
Theorem epoch_fixed_point (LocalTZA : Z -> Z) :
  epochAnchor = Date_of_iso_utc 1867 3 4 17 0 0 0 /\
  year (toJavanese LocalTZA epochAnchor) = 1795 /\
  month (toJavanese LocalTZA epochAnchor) = 1 /\
  day (toJavanese LocalTZA epochAnchor) = 1.
Proof.
  rewrite toJavanese_fields. cbn [year month day].
  assert (E : elapsedDays epochAnchor = 0) by reflexivity.
  rewrite E.
  rewrite (year_loop_stop 0 1795) by (vm_compute; reflexivity).
  cbn [fst snd].
  rewrite (month_loop_stop 1795 0 1) by (vm_compute; reflexivity).
  cbn [fst snd]. repeat split.
Qed.

(** C5. For an instant strictly before the epoch anchor the elapsed-day
    count is negative; the guard of the year loop and the guard of the month
    loop are false on entry, so both loops leave their variables untouched;
    and the result (the function being total, there always is one) has
    day <= 0, year 1795 and month 1. *)
Theorem pre_epoch_result (LocalTZA : Z -> Z) (date : Date)
    (Hpre : getTime date < getTime epochAnchor) :
  elapsedDays date < 0 /\
  ~ (elapsedDays date >= getTotalDaysInJavaneseYear 1795) /\
  year_loop (elapsedDays date) 1795 = (elapsedDays date, 1795) /\
  ~ (elapsedDays date >= getDaysInJavaneseMonth 1795 1) /\
  month_loop 1795 (elapsedDays date) 1 = (elapsedDays date, 1) /\
  day (toJavanese LocalTZA date) = elapsedDays date + 1 /\
  day (toJavanese LocalTZA date) <= 0 /\
  year (toJavanese LocalTZA date) = 1795 /\
  month (toJavanese LocalTZA date) = 1.
Proof.
  pose proof (elapsedDays_neg date Hpre) as Hneg.
  pose proof (getTotalDaysInJavaneseYear_range 1795) as Hy.
  pose proof (getDaysInJavaneseMonth_range 1795 1) as Hm.
  assert (Hyl : year_loop (elapsedDays date) 1795 = (elapsedDays date, 1795))
    by (apply year_loop_stop; lia).
  assert (Hml : month_loop 1795 (elapsedDays date) 1 = (elapsedDays date, 1))
    by (apply month_loop_stop; lia).
  rewrite toJavanese_fields. cbn [year month day].
  rewrite Hyl. cbn [fst snd]. rewrite Hml. cbn [fst snd].
  repeat split; try assumption; lia.
Qed.

Lemma pre_epoch_result_witness :
  let date := mkDate (-3244950000001) in
  let r := toJavanese (fun _ => 25200000) date in
  getTime date < getTime epochAnchor /\
  elapsedDays date < 0 /\ day r <= 0 /\ year r = 1795 /\ month r = 1.
Proof.
  intros date r.
  assert (Hpre : getTime date < getTime epochAnchor) by (vm_compute; reflexivity).
  pose proof (pre_epoch_result (fun _ => 25200000) date Hpre) as H.
  split; [exact Hpre |].
  repeat split; apply H.
Defined.

(** From a non-negative day count the two loops stop on a month of the
    year and on an offset inside that month. *)
Lemma resolution_post (jd : Z) :
  0 <= jd ->
  let yl := year_loop jd 1795 in
  let ml := month_loop (snd yl) (fst yl) 1 in
  1 <= snd ml <= 12 /\
  0 <= fst ml < getDaysInJavaneseMonth (snd yl) (snd ml).
Proof.
  intros Hjd yl ml.
  pose proof (year_loop_post jd 1795 Hjd) as Hp. fold yl in Hp.
  rewrite <- sumMonths_year in Hp.
  destruct (month_loop_post (snd yl) 12 1 (fst yl) Hp) as [Ha Hb].
  fold ml in Ha, Hb. split; [lia | exact Ha].
Qed.

(** ** The wuku index *)

(** The truncating remainder is congruent to its dividend. *)
Lemma rem_congruent (a b : Z) : 0 < b -> (Z.rem a b) mod b = a mod b.
Proof.
  intros Hb. pose proof (Z.quot_rem' a b) as E.
  replace (Z.rem a b) with (a + (- (Z.quot a b)) * b) by lia.
  apply Z.mod_add. lia.
Qed.

(** For every input the wuku index is the source's [%], the truncating
    remainder, of [floor((offset + 1) / 7)] by 30, [offset] being what the
    two loops leave; it is congruent to that quotient modulo 30, and the
    name is the wuku table at that index. *)
Lemma wuku_truncating_remainder (LocalTZA : Z -> Z) (date : Date) :
  let r := toJavanese LocalTZA date in
  let yl := year_loop (elapsedDays date) 1795 in
  let offset := fst (month_loop (snd yl) (fst yl) 1) in
  day r = offset + 1 /\
  Cycle.day (wuku r) = Z.rem ((offset + 1) / 7) 30 /\
  Cycle.day (wuku r) mod 30 = ((offset + 1) / 7) mod 30 /\
  Cycle.name (wuku r) = index WUKU (Cycle.day (wuku r)).
Proof.
  cbv zeta. rewrite toJavanese_fields. cbn [day wuku Cycle.day Cycle.name].
  repeat split. apply rem_congruent. lia.
Qed.

(** C6, as stated, fails before the epoch: eight days before the anchor
    the residual offset is -8 (day = -7), [floor((offset + 1) / 7)] is -1,
    and the wuku index is the source's [-1 % 30 = -1], not the residue 29 of
    -1 modulo 30; the lookup [WUKU[-1]] is undefined, not the name at 29. *)
Lemma wuku_pre_epoch_not_mod_30 :
  let date := addDays epochAnchor (-8) in
  let r := toJavanese (fun _ => 0) date in
  let yl := year_loop (elapsedDays date) 1795 in
  let offset := fst (month_loop (snd yl) (fst yl) 1) in
  offset = -8 /\ day r = offset + 1 /\
  Cycle.day (wuku r) = -1 /\
  ((offset + 1) / 7) mod 30 = 29 /\
  Cycle.day (wuku r) <> ((offset + 1) / 7) mod 30 /\
  Cycle.name (wuku r) = None /\
  index WUKU (((offset + 1) / 7) mod 30) = Some "Watugunung".
Proof.
  cbv zeta.
  assert (E : elapsedDays (addDays epochAnchor (-8)) = -8) by reflexivity.
  rewrite toJavanese_fields. cbn [day wuku Cycle.day Cycle.name]. rewrite E.
  rewrite (year_loop_stop (-8) 1795) by (vm_compute; reflexivity). cbn [fst snd].
  rewrite (month_loop_stop 1795 (-8) 1) by (vm_compute; reflexivity). cbn [fst snd].
  repeat split; try (vm_compute; reflexivity).
  vm_compute. intros H. discriminate H.
Qed.

(** C6, amended. For every input instant at or after the epoch anchor, the
    wuku index is [floor((offset + 1) / 7) mod 30], where [offset] is the
    non-negative zero-based day offset left after the year loop and the
    month loop, the same value that gives [day = offset + 1]; the wuku name
    is the wuku table at that index.  The residual offset is not the total
    elapsed-day count: 30 days after the epoch the index is 0 while the
    total count would give 4. *)
Theorem wuku_from_residual_offset (LocalTZA : Z -> Z) (date : Date)
    (Hpost : getTime epochAnchor <= getTime date) :
  let r := toJavanese LocalTZA date in
  let yl := year_loop (elapsedDays date) 1795 in
  let offset := fst (month_loop (snd yl) (fst yl) 1) in
  (0 <= offset /\
   day r = offset + 1 /\
   Cycle.day (wuku r) = ((offset + 1) / 7) mod 30 /\
   Cycle.name (wuku r) = index WUKU (((offset + 1) / 7) mod 30)) /\
  (let date30 := addDays epochAnchor 30 in
   let r30 := toJavanese LocalTZA date30 in
   elapsedDays date30 = 30 /\
   Cycle.day (wuku r30) = 0 /\
   ((elapsedDays date30 + 1) / 7) mod 30 = 4).
Proof.
  split.
  - cbv zeta. rewrite toJavanese_fields. cbn [day wuku Cycle.day Cycle.name].
    set (yl := year_loop (elapsedDays date) 1795).
    set (offset := fst (month_loop (snd yl) (fst yl) 1)).
    assert (Hoff : 0 <= offset)
      by (apply (resolution_post (elapsedDays date));
          apply elapsedDays_nonneg; exact Hpost).
    assert (Hrem : Z.rem ((offset + 1) / 7) 30 = ((offset + 1) / 7) mod 30).
    { apply Z.rem_mod_nonneg; [| lia]. apply Z.div_pos; lia. }
    rewrite Hrem. repeat split. exact Hoff.
  - cbv zeta. rewrite toJavanese_fields. cbn [wuku Cycle.day].
    assert (E : elapsedDays (addDays epochAnchor 30) = 30) by reflexivity.
    rewrite E.
    rewrite (year_loop_stop 30 1795) by (vm_compute; reflexivity). cbn [fst snd].
    rewrite (month_loop_step 1795 30 1) by (vm_compute; intros H; discriminate H).
    rewrite (month_loop_stop 1795) by (vm_compute; reflexivity).
    repeat split.
Qed.

Lemma wuku_from_residual_offset_witness :
  let wib := fun _ : Z => 25200000 in
  let date := addDays epochAnchor 50 in
  let r := toJavanese wib date in
  let yl := year_loop (elapsedDays date) 1795 in
  let offset := fst (month_loop (snd yl) (fst yl) 1) in
  getTime epochAnchor <= getTime date /\
  0 <= offset /\
  day r = offset + 1 /\
  Cycle.day (wuku r) = ((offset + 1) / 7) mod 30 /\
  Cycle.name (wuku r) = index WUKU (((offset + 1) / 7) mod 30).
Proof.
  intros wib date r yl offset.
  assert (Hpost : getTime epochAnchor <= getTime date)
    by (vm_compute; intros H; discriminate H).
  split; [exact Hpost |].
  apply (wuku_from_residual_offset wib date Hpost).
Defined.

(** ** Ranges of the result *)

(** C7, as stated, fails before the epoch: eight days before the anchor the
    day of the month is -7, the wuku index is -1 and the wuku name lookup
    falls outside the table. *)
Lemma pre_epoch_out_of_range :
  let r := toJavanese (fun _ => 0) (addDays epochAnchor (-8)) in
  day r = -7 /\ ~ (1 <= day r) /\
  Cycle.day (wuku r) = -1 /\ ~ (0 <= Cycle.day (wuku r) <= 29) /\
  ~ in_bounds WUKU (Cycle.day (wuku r)) /\
  Cycle.name (wuku r) = None.
Proof.
  cbv zeta.
  assert (E : toJavanese (fun _ => 0) (addDays epochAnchor (-8)) =
              {| year := 1795; month := 1; day := -7;
                 monthName := Some "Sura"; dayName := Some "Ahad";
                 pasaran := {| Cycle.day := 1; Cycle.name := Some "Legi" |};
                 wuku := {| Cycle.day := -1; Cycle.name := None |} |})
    by (vm_compute; reflexivity).
  rewrite E. cbn [day wuku Cycle.day Cycle.name]. unfold in_bounds.
  repeat split; lia.
Qed.

(** C7, amended. For every input instant at or after the epoch anchor the
    result satisfies 1 <= month <= 12, 1 <= day <= daysInMonth(year, month),
    pasaran.day in [0,4] and wuku.day in [0,29]; the four names are the
    entries of their tables at month - 1, the day of the week, pasaran.day
    and wuku.day, and each of these indexes lies inside its table, so every
    name is defined. *)
Theorem result_in_range (LocalTZA : Z -> Z) (date : Date)
    (Hpost : getTime epochAnchor <= getTime date) :
  let r := toJavanese LocalTZA date in
  (1 <= month r <= 12 /\
   1 <= day r <= getDaysInJavaneseMonth (year r) (month r) /\
   0 <= Cycle.day (pasaran r) <= 4 /\
   0 <= Cycle.day (wuku r) <= 29) /\
  (monthName r = index WULAN (month r - 1) /\
   dayName r = index DINTEN (getDay LocalTZA date) /\
   Cycle.name (pasaran r) = index PASARAN (Cycle.day (pasaran r)) /\
   Cycle.name (wuku r) = index WUKU (Cycle.day (wuku r))) /\
  (in_bounds WULAN (month r - 1) /\
   in_bounds DINTEN (getDay LocalTZA date) /\
   in_bounds PASARAN (Cycle.day (pasaran r)) /\
   in_bounds WUKU (Cycle.day (wuku r))) /\
  (monthName r <> None /\ dayName r <> None /\
   Cycle.name (pasaran r) <> None /\ Cycle.name (wuku r) <> None).
Proof.
  cbv zeta. rewrite toJavanese_fields.
  cbn [year month day monthName dayName pasaran wuku Cycle.day Cycle.name].
  pose proof (resolution_post (elapsedDays date) (elapsedDays_nonneg date Hpost))
    as [Hm Hd].
  set (yl := year_loop (elapsedDays date) 1795) in *.
  set (ml := month_loop (snd yl) (fst yl) 1) in *.
  pose proof (getDaysInJavaneseMonth_range (snd yl) (snd ml)) as Hlen.
  pose proof (getDay_range LocalTZA date) as Hdow.
  set (dow := getDay LocalTZA date) in *.
  assert (Hpas : 0 <= Z.rem (dow + 1) 5 <= 4).
  { rewrite Z.rem_mod_nonneg by lia.
    pose proof (Z.mod_pos_bound (dow + 1) 5). lia. }
  assert (Hwuk : 0 <= Z.rem ((fst ml + 1) / 7) 30 <= 29).
  { assert (0 <= (fst ml + 1) / 7) by (apply Z.div_pos; lia).
    rewrite Z.rem_mod_nonneg by lia.
    pose proof (Z.mod_pos_bound ((fst ml + 1) / 7) 30). lia. }
  assert (Hb : in_bounds WULAN (snd ml - 1) /\ in_bounds DINTEN dow /\
               in_bounds PASARAN (Z.rem (dow + 1) 5) /\
               in_bounds WUKU (Z.rem ((fst ml + 1) / 7) 30)).
  { unfold in_bounds. cbn [List.length WULAN DINTEN PASARAN WUKU]. lia. }
  split; [lia |]. split; [repeat split |]. split; [exact Hb |].
  destruct Hb as [B1 [B2 [B3 B4]]].
  repeat split; intros E;
    [ destruct (index_in_bounds _ _ B1) as [x Hx]
    | destruct (index_in_bounds _ _ B2) as [x Hx]
    | destruct (index_in_bounds _ _ B3) as [x Hx]
    | destruct (index_in_bounds _ _ B4) as [x Hx] ];
    rewrite Hx in E; discriminate E.
Qed.

Lemma result_in_range_witness :
  let date := mkDate 1762041600000 in
  let r := toJavanese (fun _ => 25200000) date in
  getTime epochAnchor <= getTime date /\
  1 <= month r <= 12 /\
  1 <= day r <= getDaysInJavaneseMonth (year r) (month r) /\
  0 <= Cycle.day (pasaran r) <= 4 /\
  0 <= Cycle.day (wuku r) <= 29.
Proof.
  intros date r.
  assert (Hpost : getTime epochAnchor <= getTime date)
    by (vm_compute; intros H; discriminate H).
  split; [exact Hpost |].
  apply (result_in_range (fun _ => 25200000) date Hpost).
Defined.

(** ** Monotonicity of the year *)

Lemma elapsedDays_shift (d1 d2 : Date) (n : Z) :
  n * msPerDay <= getTime d2 - getTime d1 ->
  elapsedDays d1 + n <= elapsedDays d2.
Proof.
  intros H. unfold elapsedDays. unfold msPerDay in H.
  rewrite <- Z.div_add by lia.
  apply Z.div_le_mono; lia.
Qed.

(** C8, as stated, fails before the epoch: two instants 2999 days apart
    (more than a whole 8-year cycle of 2835 days), both before the anchor,
    resolve to the same year 1795. *)
Lemma pre_epoch_year_not_increasing :
  let t1 := addDays epochAnchor (-3000) in
  let t2 := addDays epochAnchor (-1) in
  getTime t1 < getTime t2 /\
  getTime t2 - getTime t1 = 2999 * msPerDay /\
  sumZ (map getTotalDaysInJavaneseYear (yearsFrom 1795 8)) = 2835 /\
  year (toJavanese (fun _ => 0) t1) = 1795 /\
  year (toJavanese (fun _ => 0) t2) = 1795 /\
  ~ (year (toJavanese (fun _ => 0) t1) < year (toJavanese (fun _ => 0) t2)).
Proof.
  cbv zeta.
  assert (E1 : year (toJavanese (fun _ => 0) (addDays epochAnchor (-3000))) = 1795)
    by (vm_compute; reflexivity).
  assert (E2 : year (toJavanese (fun _ => 0) (addDays epochAnchor (-1))) = 1795)
    by (vm_compute; reflexivity).
  rewrite E1, E2.
  repeat split; try (vm_compute; reflexivity). lia.
Qed.

(** C8, amended. For two instants t1 < t2 with t1 at or after the epoch
    anchor and t2 at least one full Javanese year after t1 (the length, 354
    or 355 days, of the year that t1 resolves to; 355 days always suffice),
    the year resolved for t2 is strictly greater than the year resolved for
    t1. *)
Theorem year_strictly_increases (LocalTZA : Z -> Z) (t1 t2 : Date)
    (Hpost : getTime epochAnchor <= getTime t1)
    (Hsep : getTotalDaysInJavaneseYear (year (toJavanese LocalTZA t1)) * msPerDay
            <= getTime t2 - getTime t1) :
  getTime t1 < getTime t2 /\
  year (toJavanese LocalTZA t1) < year (toJavanese LocalTZA t2).
Proof.
  pose proof (getTotalDaysInJavaneseYear_range (year (toJavanese LocalTZA t1))) as Hr.
  split; [unfold msPerDay in Hsep; lia |].
  pose proof (elapsedDays_shift t1 t2 _ Hsep) as Hshift.
  rewrite !toJavanese_fields in *. cbn [year] in *.
  apply year_loop_strict_mono; [apply elapsedDays_nonneg; exact Hpost | exact Hshift].
Qed.

Lemma year_strictly_increases_witness :
  let t1 := epochAnchor in
  let t2 := addDays epochAnchor 354 in
  getTime epochAnchor <= getTime t1 /\
  getTotalDaysInJavaneseYear (year (toJavanese (fun _ => 0) t1)) * msPerDay
    <= getTime t2 - getTime t1 /\
  getTime t1 < getTime t2 /\
  year (toJavanese (fun _ => 0) t1) < year (toJavanese (fun _ => 0) t2).
Proof.
  intros t1 t2.
  assert (Hpost : getTime epochAnchor <= getTime t1) by (apply Z.le_refl).
  assert (Hsep : getTotalDaysInJavaneseYear (year (toJavanese (fun _ => 0) t1)) * msPerDay
                 <= getTime t2 - getTime t1)
    by (vm_compute; intros H; discriminate H).
  split; [exact Hpost |]. split; [exact Hsep |].
  exact (year_strictly_increases (fun _ => 0) t1 t2 Hpost Hsep).
Defined.

(** ** The pasaran *)

(** Moving an instant by whole days moves its week day accordingly, as long
    as the same local offset applies at both instants. *)
Lemma getDay_addDays (tz : Z -> Z) (date : Date) (n : Z) :
  tz (getTime date + n * msPerDay) = tz (getTime date) ->
  getDay tz (addDays date n) = (getDay tz date + n) mod 7.
Proof.
  intros Htz. unfold getDay, addDays, WeekDay, Day. cbn [getTime]. rewrite Htz.
  replace (getTime date + n * msPerDay + tz (getTime date))
    with (getTime date + tz (getTime date) + n * msPerDay) by lia.
  unfold msPerDay. rewrite Z.div_add by lia.
  rewrite Z.add_mod_idemp_l by lia. f_equal. lia.
Qed.

Lemma pasaran_fields (tz : Z -> Z) (date : Date) :
  pasaran (toJavanese tz date) =
  {| Cycle.day := Z.rem (getDay tz date + 1) 5;
     Cycle.name := index PASARAN (Z.rem (getDay tz date + 1) 5) |}.
Proof. rewrite toJavanese_fields. reflexivity. Qed.

Lemma weekday_cases (g : Z) :
  0 <= g <= 6 -> g = 0 \/ g = 1 \/ g = 2 \/ g = 3 \/ g = 4 \/ g = 5 \/ g = 6.
Proof. lia. Qed.

Ltac by_weekday g H :=
  destruct (weekday_cases g H) as [-> | [-> | [-> | [-> | [-> | [-> | ->]]]]]].

(** How the pasaran reacts to a shift of five days and of one day. *)
Lemma pasaran_shift_5 (g : Z) :
  0 <= g <= 6 ->
  (index PASARAN (Z.rem ((g + 5) mod 7 + 1) 5) = index PASARAN (Z.rem (g + 1) 5)
   <-> g = 0 \/ g = 1).
Proof.
  intros H. by_weekday g H; vm_compute; split; intros E;
    try (left; reflexivity); try (right; reflexivity); try reflexivity;
    try discriminate E; destruct E as [E | E]; discriminate E.
Qed.

Lemma pasaran_shift_1 (g : Z) :
  0 <= g <= 6 ->
  (Z.rem ((g + 1) mod 7 + 1) 5 = (Z.rem (g + 1) 5 + 1) mod 5 <-> g <> 6).
Proof.
  intros H. by_weekday g H; vm_compute; split; intros E;
    try reflexivity; try discriminate E;
    try (intros E'; discriminate E'); exfalso; apply E; reflexivity.
Qed.

(** C4, as stated, fails: in a host on UTC, five days after Tuesday
    1867-03-05 (pasaran Pon) the pasaran is Legi, and one day after Saturday
    1867-03-09 (index 2) the index is 1, not 3. *)
Lemma pasaran_not_five_day_cycle :
  let utc := fun _ : Z => 0 in
  let tue := addDays epochAnchor 1 in
  let sat := addDays epochAnchor 5 in
  getDay utc tue = 2 /\
  Cycle.name (pasaran (toJavanese utc tue)) = Some "Pon" /\
  Cycle.name (pasaran (toJavanese utc (addDays tue 5))) = Some "Legi" /\
  Cycle.name (pasaran (toJavanese utc (addDays tue 5))) <>
    Cycle.name (pasaran (toJavanese utc tue)) /\
  getDay utc sat = 6 /\
  Cycle.day (pasaran (toJavanese utc sat)) = 2 /\
  Cycle.day (pasaran (toJavanese utc (addDays sat 1))) = 1 /\
  Cycle.day (pasaran (toJavanese utc (addDays sat 1))) <>
    (Cycle.day (pasaran (toJavanese utc sat)) + 1) mod 5.
Proof.
  cbv zeta. rewrite !pasaran_fields. cbn [Cycle.day Cycle.name].
  repeat split; try (vm_compute; reflexivity); vm_compute; intros E; discriminate E.
Qed.

(** C4, amended. With the same local offset in force before and after the
    shift: incrementing the input date by 5 days yields the same pasaran
    name exactly when the input falls on a Sunday or a Monday, and
    incrementing it by 1 day advances the pasaran index by one position
    modulo 5 exactly when the input does not fall on a Saturday. *)
Theorem pasaran_under_day_shift (LocalTZA : Z -> Z) (date : Date)
    (Htz5 : LocalTZA (getTime date + 5 * msPerDay) = LocalTZA (getTime date))
    (Htz1 : LocalTZA (getTime date + 1 * msPerDay) = LocalTZA (getTime date)) :
  (Cycle.name (pasaran (toJavanese LocalTZA (addDays date 5))) =
     Cycle.name (pasaran (toJavanese LocalTZA date))
   <-> getDay LocalTZA date = 0 \/ getDay LocalTZA date = 1) /\
  (Cycle.day (pasaran (toJavanese LocalTZA (addDays date 1))) =
     (Cycle.day (pasaran (toJavanese LocalTZA date)) + 1) mod 5
   <-> getDay LocalTZA date <> 6).
Proof.
  rewrite !pasaran_fields. cbn [Cycle.day Cycle.name].
  rewrite (getDay_addDays _ _ 5 Htz5), (getDay_addDays _ _ 1 Htz1).
  pose proof (getDay_range LocalTZA date) as Hr.
  split; [apply pasaran_shift_5 | apply pasaran_shift_1]; exact Hr.
Qed.

Lemma pasaran_under_day_shift_witness :
  let wib := fun _ : Z => 25200000 in
  let date := epochAnchor in
  wib (getTime date + 5 * msPerDay) = wib (getTime date) /\
  wib (getTime date + 1 * msPerDay) = wib (getTime date) /\
  (Cycle.name (pasaran (toJavanese wib (addDays date 5))) =
     Cycle.name (pasaran (toJavanese wib date))
   <-> getDay wib date = 0 \/ getDay wib date = 1) /\
  (Cycle.day (pasaran (toJavanese wib (addDays date 1))) =
     (Cycle.day (pasaran (toJavanese wib date)) + 1) mod 5
   <-> getDay wib date <> 6).
Proof.
  intros wib date.
  split; [reflexivity |]. split; [reflexivity |].
  exact (pasaran_under_day_shift wib date eq_refl eq_refl).
Defined.

(** C10. The pasaran of the result is a function of the day of the week of
    the input alone: two inputs on the same week day get the same pasaran,
    index and name.  Hence, under an unchanged local offset, the pasaran
    comes back after 7 days, whereas after 5 days it differs for every
    input on a Tuesday to a Saturday. *)
Theorem pasaran_depends_on_weekday_only (LocalTZA : Z -> Z) :
  (forall d1 d2 : Date,
     getDay LocalTZA d1 = getDay LocalTZA d2 ->
     pasaran (toJavanese LocalTZA d1) = pasaran (toJavanese LocalTZA d2) /\
     Cycle.day (pasaran (toJavanese LocalTZA d1)) =
       Cycle.day (pasaran (toJavanese LocalTZA d2)) /\
     Cycle.name (pasaran (toJavanese LocalTZA d1)) =
       Cycle.name (pasaran (toJavanese LocalTZA d2))) /\
  (forall d : Date,
     LocalTZA (getTime d + 7 * msPerDay) = LocalTZA (getTime d) ->
     pasaran (toJavanese LocalTZA (addDays d 7)) = pasaran (toJavanese LocalTZA d)) /\
  (forall d : Date,
     LocalTZA (getTime d + 5 * msPerDay) = LocalTZA (getTime d) ->
     2 <= getDay LocalTZA d ->
     pasaran (toJavanese LocalTZA (addDays d 5)) <> pasaran (toJavanese LocalTZA d)).
Proof.
  split; [| split].
  - intros d1 d2 H. rewrite !pasaran_fields, H. repeat split.
  - intros d H. rewrite !pasaran_fields, (getDay_addDays _ _ 7 H).
    pose proof (getDay_range LocalTZA d) as Hr.
    replace ((getDay LocalTZA d + 7) mod 7) with (getDay LocalTZA d); [reflexivity |].
    replace (getDay LocalTZA d + 7) with (getDay LocalTZA d + 1 * 7) by lia.
    rewrite Z.mod_add by lia. symmetry. apply Z.mod_small. lia.
  - intros d H Hge E. rewrite !pasaran_fields, (getDay_addDays _ _ 5 H) in E.
    pose proof (getDay_range LocalTZA d) as Hr.
    apply (f_equal Cycle.name) in E. cbn [Cycle.name] in E.
    apply pasaran_shift_5 in E; [lia | exact Hr].
Qed.

Lemma pasaran_depends_on_weekday_only_witness :
  let wib := fun _ : Z => 25200000 in
  let d1 := epochAnchor in
  let d2 := addDays epochAnchor 14 in
  getDay wib d1 = getDay wib d2 /\
  pasaran (toJavanese wib d1) = pasaran (toJavanese wib d2) /\
  pasaran (toJavanese wib (addDays d1 7)) = pasaran (toJavanese wib d1) /\
  pasaran (toJavanese wib (addDays d1 5)) <> pasaran (toJavanese wib d1).
Proof.
  intros wib d1 d2.
  destruct (pasaran_depends_on_weekday_only wib) as [Hsame [Hweek Hfive]].
  assert (Hd : getDay wib d1 = getDay wib d2) by reflexivity.
  split; [exact Hd |].
  split; [apply (Hsame d1 d2 Hd) |].
  split; [apply (Hweek d1); reflexivity |].
  apply (Hfive d1); [reflexivity | vm_compute; intros H; discriminate H].
Defined.

(** * Further properties of the conversion *)

(** ** More on the two loops *)

(** Induction along the iterations of the month loop. *)
Lemma month_loop_induction (y : Z) (P : Z -> Z -> Z * Z -> Prop) :
  (forall jd m, jd < getDaysInJavaneseMonth y m -> P jd m (jd, m)) ->
  (forall jd m, getDaysInJavaneseMonth y m <= jd ->
     P (jd - getDaysInJavaneseMonth y m) (m + 1)
       (month_loop y (jd - getDaysInJavaneseMonth y m) (m + 1)) ->
     P jd m (month_loop y (jd - getDaysInJavaneseMonth y m) (m + 1))) ->
  forall jd m, P jd m (month_loop y jd m).
Proof.
  intros Hstop Hstep jd.
  assert (Hwf : forall n : nat, forall jd m, Z.to_nat jd = n -> P jd m (month_loop y jd m)).
  { induction n as [n IH] using lt_wf_ind. intros jd0 m Hn.
    destruct (Z_lt_ge_dec jd0 (getDaysInJavaneseMonth y m)) as [Hlt | Hge].
    - rewrite month_loop_stop by exact Hlt. apply Hstop. exact Hlt.
    - pose proof (getDaysInJavaneseMonth_range y m) as Hr.
      rewrite month_loop_step by lia. apply Hstep; [lia |].
      apply (IH (Z.to_nat (jd0 - getDaysInJavaneseMonth y m))); [lia | reflexivity]. }
  intros m. apply (Hwf (Z.to_nat jd)). reflexivity.
Qed.

Lemma month_loop_month_ge (y jd m : Z) : m <= snd (month_loop y jd m).
Proof.
  apply (month_loop_induction y (fun _ m r => m <= snd r)); cbn [snd]; intros; lia.
Qed.

(** Both loops always leave an offset below the bucket they stop at. *)
Lemma year_loop_lt (jd y : Z) :
  fst (year_loop jd y) < getTotalDaysInJavaneseYear (snd (year_loop jd y)).
Proof.
  apply (year_loop_induction
           (fun _ _ r => fst r < getTotalDaysInJavaneseYear (snd r)));
    cbn [fst snd]; intros; assumption.
Qed.

Lemma month_loop_lt (y jd m : Z) :
  fst (month_loop y jd m) < getDaysInJavaneseMonth y (snd (month_loop y jd m)).
Proof.
  apply (month_loop_induction y
           (fun _ _ r => fst r < getDaysInJavaneseMonth y (snd r)));
    cbn [fst snd]; intros; assumption.
Qed.

(** What the loops subtract is the total length of the buckets they pass. *)
Lemma year_loop_decompose (jd y : Z) :
  jd = sumYears y (Z.to_nat (snd (year_loop jd y) - y)) + fst (year_loop jd y).
Proof.
  apply (year_loop_induction
           (fun jd y r => jd = sumYears y (Z.to_nat (snd r - y)) + fst r)).
  - intros jd0 y0 _. cbn [fst snd]. rewrite Z.sub_diag. reflexivity.
  - intros jd0 y0 Hge IH.
    pose proof (year_loop_year_ge (jd0 - getTotalDaysInJavaneseYear y0) (y0 + 1)) as Hy.
    set (r := year_loop (jd0 - getTotalDaysInJavaneseYear y0) (y0 + 1)) in *.
    replace (Z.to_nat (snd r - y0)) with (S (Z.to_nat (snd r - (y0 + 1)))) by lia.
    cbn [sumYears]. lia.
Qed.

Lemma month_loop_decompose (y jd m : Z) :
  jd = sumMonths y m (Z.to_nat (snd (month_loop y jd m) - m))
       + fst (month_loop y jd m).
Proof.
  apply (month_loop_induction y
           (fun jd m r => jd = sumMonths y m (Z.to_nat (snd r - m)) + fst r)).
  - intros jd0 m0 _. cbn [fst snd]. rewrite Z.sub_diag. reflexivity.
  - intros jd0 m0 Hge IH.
    pose proof (month_loop_month_ge y (jd0 - getDaysInJavaneseMonth y m0) (m0 + 1)) as Hm.
    set (r := month_loop y (jd0 - getDaysInJavaneseMonth y m0) (m0 + 1)) in *.
    replace (Z.to_nat (snd r - m0)) with (S (Z.to_nat (snd r - (m0 + 1)))) by lia.
    cbn [sumMonths]. lia.
Qed.

(** The elapsed-day count is recovered from the year, month and day. *)
Lemma resolution_decompose (jd : Z) :
  let yl := year_loop jd 1795 in
  let ml := month_loop (snd yl) (fst yl) 1 in
  jd = daysBeforeYear (snd yl) + daysBeforeMonth (snd yl) (snd ml) + fst ml.
Proof.
  intros yl ml. unfold daysBeforeYear, daysBeforeMonth.
  pose proof (year_loop_decompose jd 1795) as Hy. fold yl in Hy.
  pose proof (month_loop_decompose (snd yl) (fst yl) 1) as Hm. fold ml in Hm.
  lia.
Qed.

(** ** Round trip and injectivity *)

(** X1. The result accounts for every elapsed day: the whole days since the
    anchor are the lengths of the years from 1795 up to the resolved year,
    plus the lengths of the months of that year before the resolved month,
    plus day - 1.  This holds for every input, before the epoch too. *)
Theorem elapsed_days_recovered (LocalTZA : Z -> Z) (date : Date) :
  let r := toJavanese LocalTZA date in
  elapsedDays date =
    daysBeforeYear (year r) + daysBeforeMonth (year r) (month r) + (day r - 1).
Proof.
  cbv zeta. rewrite toJavanese_fields. cbn [year month day].
  pose proof (resolution_decompose (elapsedDays date)) as H. cbv zeta in H. lia.
Qed.

(** X2. The public entry point never gives two different days the same
    date: results that agree on year, month and day come from instants in
    the same 24-hour window counted from the anchor. *)
Theorem generateJavaneseTimestamp_injective (LocalTZA : Z -> Z) (d1 d2 : Date)
    (Hsame : ymd (generateJavaneseTimestamp LocalTZA d1) =
             ymd (generateJavaneseTimestamp LocalTZA d2)) :
  elapsedDays d1 = elapsedDays d2 /\
  Z.abs (getTime d1 - getTime d2) < msPerDay.
Proof.
  unfold generateJavaneseTimestamp, ymd in Hsame.
  rewrite !toJavanese_fields in Hsame. cbn [year month day] in Hsame.
  injection Hsame as Hy Hm Hd.
  pose proof (resolution_decompose (elapsedDays d1)) as H1.
  pose proof (resolution_decompose (elapsedDays d2)) as H2.
  cbv zeta in H1, H2.
  set (yl1 := year_loop (elapsedDays d1) 1795) in *.
  set (yl2 := year_loop (elapsedDays d2) 1795) in *.
  set (ml1 := month_loop (snd yl1) (fst yl1) 1) in *.
  set (ml2 := month_loop (snd yl2) (fst yl2) 1) in *.
  clearbody ml1 ml2. rewrite Hy, Hm in H1.
  assert (E : elapsedDays d1 = elapsedDays d2) by lia.
  split; [exact E |].
  unfold elapsedDays, msPerDay in *.
  Z.to_euclidean_division_equations. lia.
Qed.

Lemma generateJavaneseTimestamp_injective_witness :
  let utc := fun _ : Z => 0 in
  let d1 := epochAnchor in
  let d2 := mkDate (getTime epochAnchor + 86399999) in
  ymd (generateJavaneseTimestamp utc d1) = ymd (generateJavaneseTimestamp utc d2) /\
  elapsedDays d1 = elapsedDays d2 /\
  Z.abs (getTime d1 - getTime d2) < msPerDay.
Proof.
  intros utc d1 d2.
  assert (H : ymd (generateJavaneseTimestamp utc d1) =
              ymd (generateJavaneseTimestamp utc d2)) by (vm_compute; reflexivity).
  split; [exact H |].
  exact (generateJavaneseTimestamp_injective utc d1 d2 H).
Defined.

(** ** One day later *)

Lemma elapsedDays_addDays (date : Date) (n : Z) :
  elapsedDays (addDays date n) = elapsedDays date + n.
Proof.
  unfold elapsedDays, addDays, msPerDay. cbn [getTime].
  rewrite <- Z.div_add by lia. f_equal. lia.
Qed.

Lemma year_loop_succ (jd y : Z) :
  year_loop (jd + 1) y =
  let r := year_loop jd y in
  if fst r + 1 <? getTotalDaysInJavaneseYear (snd r)
  then (fst r + 1, snd r) else (0, snd r + 1).
Proof.
  apply (year_loop_induction
           (fun jd y r => year_loop (jd + 1) y =
              if fst r + 1 <? getTotalDaysInJavaneseYear (snd r)
              then (fst r + 1, snd r) else (0, snd r + 1))).
  - intros jd0 y0 Hlt. cbn [fst snd].
    destruct (Z.ltb_spec (jd0 + 1) (getTotalDaysInJavaneseYear y0)) as [H | H].
    + apply year_loop_stop. exact H.
    + rewrite year_loop_step by exact H.
      replace (jd0 + 1 - getTotalDaysInJavaneseYear y0) with 0 by lia.
      apply year_loop_stop.
      pose proof (getTotalDaysInJavaneseYear_range (y0 + 1)). lia.
  - intros jd0 y0 Hge IH.
    rewrite year_loop_step by lia.
    replace (jd0 + 1 - getTotalDaysInJavaneseYear y0)
      with (jd0 - getTotalDaysInJavaneseYear y0 + 1) by lia.
    exact IH.
Qed.

Lemma month_loop_succ (y jd m : Z) :
  month_loop y (jd + 1) m =
  let r := month_loop y jd m in
  if fst r + 1 <? getDaysInJavaneseMonth y (snd r)
  then (fst r + 1, snd r) else (0, snd r + 1).
Proof.
  apply (month_loop_induction y
           (fun jd m r => month_loop y (jd + 1) m =
              if fst r + 1 <? getDaysInJavaneseMonth y (snd r)
              then (fst r + 1, snd r) else (0, snd r + 1))).
  - intros jd0 m0 Hlt. cbn [fst snd].
    destruct (Z.ltb_spec (jd0 + 1) (getDaysInJavaneseMonth y m0)) as [H | H].
    + apply month_loop_stop. exact H.
    + rewrite month_loop_step by exact H.
      replace (jd0 + 1 - getDaysInJavaneseMonth y m0) with 0 by lia.
      apply month_loop_stop.
      pose proof (getDaysInJavaneseMonth_range y (m0 + 1)). lia.
  - intros jd0 m0 Hge IH.
    rewrite month_loop_step by lia.
    replace (jd0 + 1 - getDaysInJavaneseMonth y m0)
      with (jd0 - getDaysInJavaneseMonth y m0 + 1) by lia.
    exact IH.
Qed.

(** Where each month ends inside its year: only month 12 ends with it. *)
Lemma month_end_in_year (y m : Z) :
  1 <= m <= 12 ->
  daysBeforeMonth y m + getDaysInJavaneseMonth y m <= getTotalDaysInJavaneseYear y /\
  (m < 12 ->
   daysBeforeMonth y m + getDaysInJavaneseMonth y m < getTotalDaysInJavaneseYear y) /\
  (m = 12 ->
   daysBeforeMonth y m + getDaysInJavaneseMonth y m = getTotalDaysInJavaneseYear y).
Proof.
  intros Hm.
  assert (Hc : m = 1 \/ m = 2 \/ m = 3 \/ m = 4 \/ m = 5 \/ m = 6 \/
               m = 7 \/ m = 8 \/ m = 9 \/ m = 10 \/ m = 11 \/ m = 12) by lia.
  unfold daysBeforeMonth.
  repeat destruct Hc as [-> | Hc]; try subst m;
    match goal with |- context [Z.to_nat ?e] =>
      let n := eval vm_compute in (Z.to_nat e) in change (Z.to_nat e) with n end;
    cbn [sumMonths];
    unfold getTotalDaysInJavaneseYear, getDaysInJavaneseMonth;
    destruct (isJavaneseLeapYear y); cbn; lia.
Qed.

(** The month found from an offset inside the year, and how the offset
    splits. *)
Lemma month_of_offset (y jd : Z) :
  jd < getTotalDaysInJavaneseYear y ->
  let ml := month_loop y jd 1 in
  1 <= snd ml <= 12 /\
  fst ml < getDaysInJavaneseMonth y (snd ml) /\
  jd = daysBeforeMonth y (snd ml) + fst ml /\
  (jd < 0 -> ml = (jd, 1)).
Proof.
  intros Hlt ml.
  pose proof (month_loop_lt y jd 1) as H1. fold ml in H1.
  pose proof (month_loop_decompose y jd 1) as H2. fold ml in H2.
  pose proof (month_loop_month_ge y jd 1) as H3. fold ml in H3.
  pose proof (getDaysInJavaneseMonth_range y 1) as Hr.
  assert (Hneg : jd < 0 -> ml = (jd, 1))
    by (intros Hn; apply month_loop_stop; lia).
  split; [| split; [exact H1 | split; [exact H2 | exact Hneg]]].
  split; [exact H3 |].
  destruct (Z_lt_ge_dec jd 0) as [Hn | Hp].
  - rewrite (Hneg Hn). cbn [snd]. lia.
  - rewrite <- sumMonths_year in Hlt.
    pose proof (month_loop_post y 12 1 jd (conj (Z.ge_le _ _ Hp) Hlt)) as [_ Hb].
    fold ml in Hb. lia.
Qed.

(** X3. One day later the date is the next day of the same month, or else
    the first day of the next month, or else, after the last day of month
    12, the first day of month 1 of the next year.  This holds for every
    input. *)
Theorem next_day (LocalTZA : Z -> Z) (date : Date) :
  let r := toJavanese LocalTZA date in
  ymd (toJavanese LocalTZA (addDays date 1)) =
  if day r <? getDaysInJavaneseMonth (year r) (month r)
  then (year r, month r, day r + 1)
  else if month r <? 12 then (year r, month r + 1, 1)
  else (year r + 1, 1, 1).
Proof.
  cbv zeta. unfold ymd. rewrite !toJavanese_fields. cbn [year month day].
  rewrite elapsedDays_addDays, year_loop_succ. cbv zeta.
  set (yl := year_loop (elapsedDays date) 1795).
  pose proof (year_loop_lt (elapsedDays date) 1795) as Hyl. fold yl in Hyl.
  pose proof (month_of_offset (snd yl) (fst yl) Hyl) as [Hm [Hd [Hsplit Hneg]]].
  pose proof (month_loop_succ (snd yl) (fst yl) 1) as Hsucc. cbv zeta in Hsucc.
  set (ml := month_loop (snd yl) (fst yl) 1) in *.
  pose proof (month_end_in_year (snd yl) (snd ml) Hm) as [He [He1 He2]].
  pose proof (getDaysInJavaneseMonth_range (snd yl + 1) 1) as Hr1.
  destruct (Z.ltb_spec (fst ml + 1) (getDaysInJavaneseMonth (snd yl) (snd ml)))
    as [Hin | Hout].
  - destruct (Z.ltb_spec (fst yl + 1) (getTotalDaysInJavaneseYear (snd yl)))
      as [Hy | Hy]; [| lia].
    cbn [fst snd]. rewrite Hsucc. cbn [fst snd]. reflexivity.
  - destruct (Z.ltb_spec (snd ml) 12) as [Hm12 | Hm12].
    + destruct (Z.ltb_spec (fst yl + 1) (getTotalDaysInJavaneseYear (snd yl)))
        as [Hy | Hy]; [| lia].
      cbn [fst snd]. rewrite Hsucc. cbn [fst snd]. reflexivity.
    + destruct (Z.ltb_spec (fst yl + 1) (getTotalDaysInJavaneseYear (snd yl)))
        as [Hy | Hy]; [lia |].
      cbn [fst snd]. rewrite (month_loop_stop (snd yl + 1) 0 1) by lia.
      cbn [fst snd]. reflexivity.
Qed.

(** ** Order *)

Lemma year_loop_mono (jd1 jd2 y : Z) :
  jd1 <= jd2 ->
  snd (year_loop jd1 y) < snd (year_loop jd2 y) \/
  (snd (year_loop jd1 y) = snd (year_loop jd2 y) /\
   fst (year_loop jd1 y) <= fst (year_loop jd2 y)).
Proof.
  revert jd2.
  apply (year_loop_induction
           (fun jd1 y r => forall jd2, jd1 <= jd2 ->
              snd r < snd (year_loop jd2 y) \/
              (snd r = snd (year_loop jd2 y) /\ fst r <= fst (year_loop jd2 y)))).
  - intros jd0 y0 Hlt jd2 Hle. cbn [fst snd].
    destruct (Z_lt_ge_dec jd2 (getTotalDaysInJavaneseYear y0)) as [H2 | H2].
    + rewrite (year_loop_stop jd2 y0 H2). cbn [fst snd]. right. lia.
    + rewrite (year_loop_step jd2 y0) by lia.
      pose proof (year_loop_year_ge (jd2 - getTotalDaysInJavaneseYear y0) (y0 + 1)).
      left. lia.
  - intros jd0 y0 Hge IH jd2 Hle.
    rewrite (year_loop_step jd2 y0) by lia.
    apply IH. lia.
Qed.

Lemma month_loop_mono (y jd1 jd2 m : Z) :
  jd1 <= jd2 ->
  snd (month_loop y jd1 m) < snd (month_loop y jd2 m) \/
  (snd (month_loop y jd1 m) = snd (month_loop y jd2 m) /\
   fst (month_loop y jd1 m) <= fst (month_loop y jd2 m)).
Proof.
  revert jd2.
  apply (month_loop_induction y
           (fun jd1 m r => forall jd2, jd1 <= jd2 ->
              snd r < snd (month_loop y jd2 m) \/
              (snd r = snd (month_loop y jd2 m) /\ fst r <= fst (month_loop y jd2 m)))).
  - intros jd0 m0 Hlt jd2 Hle. cbn [fst snd].
    destruct (Z_lt_ge_dec jd2 (getDaysInJavaneseMonth y m0)) as [H2 | H2].
    + rewrite (month_loop_stop y jd2 m0 H2). cbn [fst snd]. right. lia.
    + rewrite (month_loop_step y jd2 m0) by lia.
      pose proof (month_loop_month_ge y (jd2 - getDaysInJavaneseMonth y m0) (m0 + 1)).
      left. lia.
  - intros jd0 m0 Hge IH jd2 Hle.
    rewrite (month_loop_step y jd2 m0) by lia.
    apply IH. lia.
Qed.

(** X4. The conversion is monotone: a later instant never gets an earlier
    date, (year, month, day) being compared lexicographically.  This holds
    for every pair of inputs, before the epoch too. *)
Theorem toJavanese_monotone (LocalTZA : Z -> Z) (d1 d2 : Date)
    (Hle : getTime d1 <= getTime d2) :
  ymd_le (ymd (toJavanese LocalTZA d1)) (ymd (toJavanese LocalTZA d2)).
Proof.
  unfold ymd, ymd_le. rewrite !toJavanese_fields. cbn [year month day].
  assert (He : elapsedDays d1 <= elapsedDays d2)
    by (unfold elapsedDays; apply Z.div_le_mono; lia).
  destruct (year_loop_mono _ _ 1795 He) as [Hy | [Hy Hf]]; [left; exact Hy |].
  right. split; [exact Hy |].
  rewrite <- Hy.
  destruct (month_loop_mono (snd (year_loop (elapsedDays d1) 1795)) _ _ 1 Hf)
    as [Hm | [Hm Hd]]; [left; exact Hm | right; split; [exact Hm | lia]].
Qed.

Lemma toJavanese_monotone_witness :
  let utc := fun _ : Z => 0 in
  let d1 := addDays epochAnchor 29 in
  let d2 := addDays epochAnchor 30 in
  getTime d1 <= getTime d2 /\
  ymd (toJavanese utc d1) = (1795, 1, 30) /\
  ymd (toJavanese utc d2) = (1795, 2, 1) /\
  ymd_le (ymd (toJavanese utc d1)) (ymd (toJavanese utc d2)).
Proof.
  intros utc d1 d2.
  assert (Hle : getTime d1 <= getTime d2) by (vm_compute; intros H; discriminate H).
  split; [exact Hle |].
  split; [vm_compute; reflexivity |].
  split; [vm_compute; reflexivity |].
  exact (toJavanese_monotone utc d1 d2 Hle).
Defined.

(** ** The 8-year cycle *)

Lemma getTotalDaysInJavaneseYear_periodic (y : Z) :
  getTotalDaysInJavaneseYear (y + 8) = getTotalDaysInJavaneseYear y.
Proof.
  unfold getTotalDaysInJavaneseYear.
  replace (y + 8) with (y + 8 * 1) by lia.
  rewrite isJavaneseLeapYear_periodic. reflexivity.
Qed.

Lemma getDaysInJavaneseMonth_periodic (y m : Z) :
  getDaysInJavaneseMonth (y + 8) m = getDaysInJavaneseMonth y m.
Proof.
  unfold getDaysInJavaneseMonth.
  replace (y + 8) with (y + 8 * 1) by lia.
  rewrite isJavaneseLeapYear_periodic. reflexivity.
Qed.

(** Eight consecutive years always hold 2835 days. *)
Lemma sumYears_8 (y : Z) : sumYears y 8 = 2835.
Proof.
  destruct (year_decompose y) as [p [q [Hp ->]]].
  cbn [sumYears]. unfold getTotalDaysInJavaneseYear.
  repeat match goal with
  | |- context [isJavaneseLeapYear (?e + 1)] =>
      lazymatch e with
      | p + 8 * q => replace (e + 1) with (p + 1 + 8 * q) by lia
      | p + ?k + 8 * q => replace (e + 1) with (p + (k + 1) + 8 * q) by lia
      end
  end.
  rewrite !isJavaneseLeapYear_periodic.
  assert (Hc : p = 1 \/ p = 2 \/ p = 3 \/ p = 4 \/ p = 5 \/ p = 6 \/ p = 7 \/ p = 8)
    by lia.
  repeat destruct Hc as [-> | Hc]; try subst p; reflexivity.
Qed.

Lemma sumYears_nonneg (n : nat) : forall y, 0 <= sumYears y n.
Proof.
  induction n as [| n IH]; intros y; cbn [sumYears]; [lia |].
  pose proof (getTotalDaysInJavaneseYear_range y). pose proof (IH (y + 1)). lia.
Qed.

(** Starting [n] whole years further on is starting [n] years later. *)
Lemma year_loop_skip (n : nat) :
  forall y jd, 0 <= jd ->
    year_loop (sumYears y n + jd) y = year_loop jd (y + Z.of_nat n).
Proof.
  induction n as [| n IH]; intros y jd Hjd.
  - cbn [sumYears]. rewrite Z.add_0_l, Z.add_0_r. reflexivity.
  - cbn [sumYears].
    pose proof (sumYears_nonneg n (y + 1)) as Hs.
    rewrite year_loop_step by lia.
    replace (getTotalDaysInJavaneseYear y + sumYears (y + 1) n + jd
             - getTotalDaysInJavaneseYear y)
      with (sumYears (y + 1) n + jd) by lia.
    rewrite IH by exact Hjd. f_equal. lia.
Qed.

Lemma year_loop_shift_8 (jd y : Z) :
  year_loop jd (y + 8) = (fst (year_loop jd y), snd (year_loop jd y) + 8).
Proof.
  apply (year_loop_induction
           (fun jd y r => year_loop jd (y + 8) = (fst r, snd r + 8))).
  - intros jd0 y0 Hlt. cbn [fst snd]. apply year_loop_stop.
    rewrite getTotalDaysInJavaneseYear_periodic. exact Hlt.
  - intros jd0 y0 Hge IH.
    rewrite year_loop_step by (rewrite getTotalDaysInJavaneseYear_periodic; exact Hge).
    rewrite getTotalDaysInJavaneseYear_periodic.
    replace (y0 + 8 + 1) with (y0 + 1 + 8) by lia. exact IH.
Qed.

Lemma month_loop_shift_8 (y jd m : Z) :
  month_loop (y + 8) jd m = month_loop y jd m.
Proof.
  apply (month_loop_induction y (fun jd m r => month_loop (y + 8) jd m = r)).
  - intros jd0 m0 Hlt. apply month_loop_stop.
    rewrite getDaysInJavaneseMonth_periodic. exact Hlt.
  - intros jd0 m0 Hge IH.
    rewrite month_loop_step by (rewrite getDaysInJavaneseMonth_periodic; exact Hge).
    rewrite getDaysInJavaneseMonth_periodic. exact IH.
Qed.

(** X5. From the epoch on the whole result repeats every 8 Javanese years,
    that is every 2835 days (405 weeks): 2835 days later, under the same
    local offset, the result is the same in every field except the year,
    which is 8 more. *)
Theorem windu_period (LocalTZA : Z -> Z) (date : Date)
    (Hpost : getTime epochAnchor <= getTime date)
    (Htz : LocalTZA (getTime date + 2835 * msPerDay) = LocalTZA (getTime date)) :
  let r := toJavanese LocalTZA date in
  toJavanese LocalTZA (addDays date 2835) =
  {| year := year r + 8; month := month r; day := day r;
     monthName := monthName r; dayName := dayName r;
     pasaran := pasaran r; wuku := wuku r |}.
Proof.
  cbv zeta. rewrite !toJavanese_fields.
  cbn [year month day monthName dayName pasaran wuku].
  rewrite elapsedDays_addDays, (getDay_addDays _ _ 2835 Htz).
  pose proof (elapsedDays_nonneg date Hpost) as Hjd.
  pose proof (getDay_range LocalTZA date) as Hdow.
  replace (elapsedDays date + 2835) with (sumYears 1795 8 + elapsedDays date)
    by (rewrite sumYears_8; lia).
  rewrite year_loop_skip by exact Hjd.
  change (1795 + Z.of_nat 8) with (1795 + 8).
  rewrite year_loop_shift_8. cbn [fst snd].
  rewrite month_loop_shift_8.
  replace ((getDay LocalTZA date + 2835) mod 7) with (getDay LocalTZA date);
    [reflexivity |].
  replace (getDay LocalTZA date + 2835) with (getDay LocalTZA date + 405 * 7) by lia.
  rewrite Z.mod_add by lia. symmetry. apply Z.mod_small. lia.
Qed.

Lemma windu_period_witness :
  let wib := fun _ : Z => 25200000 in
  let date := addDays epochAnchor 400 in
  let r := toJavanese wib date in
  getTime epochAnchor <= getTime date /\
  wib (getTime date + 2835 * msPerDay) = wib (getTime date) /\
  toJavanese wib (addDays date 2835) =
  {| year := year r + 8; month := month r; day := day r;
     monthName := monthName r; dayName := dayName r;
     pasaran := pasaran r; wuku := wuku r |}.
Proof.
  intros wib date r.
  assert (Hpost : getTime epochAnchor <= getTime date)
    by (vm_compute; intros H; discriminate H).
  split; [exact Hpost |]. split; [reflexivity |].
  exact (windu_period wib date Hpost eq_refl).
Defined.

(** ** What holds for every input *)

(** X6. Whatever the instant, before the epoch or after: the year is at
    least 1795, the month is between 1 and 12, the day does not exceed the
    length of the month, the pasaran index is between 0 and 4, the wuku
    index is at most 4, and the month name, the day name and the pasaran
    name are defined. *)
Theorem always_in_range (LocalTZA : Z -> Z) (date : Date) :
  let r := toJavanese LocalTZA date in
  1795 <= year r /\
  1 <= month r <= 12 /\
  day r <= getDaysInJavaneseMonth (year r) (month r) /\
  0 <= Cycle.day (pasaran r) <= 4 /\
  Cycle.day (wuku r) <= 4 /\
  monthName r <> None /\ dayName r <> None /\ Cycle.name (pasaran r) <> None.
Proof.
  cbv zeta. rewrite toJavanese_fields.
  cbn [year month day monthName dayName pasaran wuku Cycle.day Cycle.name].
  set (yl := year_loop (elapsedDays date) 1795).
  pose proof (year_loop_year_ge (elapsedDays date) 1795) as Hy. fold yl in Hy.
  pose proof (year_loop_lt (elapsedDays date) 1795) as Hyl. fold yl in Hyl.
  pose proof (month_of_offset (snd yl) (fst yl) Hyl) as [Hm [Hd _]].
  set (ml := month_loop (snd yl) (fst yl) 1) in *.
  pose proof (getDaysInJavaneseMonth_range (snd yl) (snd ml)) as Hlen.
  pose proof (getDay_range LocalTZA date) as Hdow.
  set (dow := getDay LocalTZA date) in *.
  assert (Hpas : 0 <= Z.rem (dow + 1) 5 <= 4).
  { rewrite Z.rem_mod_nonneg by lia.
    pose proof (Z.mod_pos_bound (dow + 1) 5). lia. }
  assert (Hwuk : Z.rem ((fst ml + 1) / 7) 30 <= 4)
    by (Z.to_euclidean_division_equations; lia).
  assert (B1 : in_bounds WULAN (snd ml - 1))
    by (unfold in_bounds; cbn [List.length WULAN]; lia).
  assert (B2 : in_bounds DINTEN dow)
    by (unfold in_bounds; cbn [List.length DINTEN]; lia).
  assert (B3 : in_bounds PASARAN (Z.rem (dow + 1) 5))
    by (unfold in_bounds; cbn [List.length PASARAN]; lia).
  repeat split; try lia; intros E;
    [ destruct (index_in_bounds _ _ B1) as [x Hx]
    | destruct (index_in_bounds _ _ B2) as [x Hx]
    | destruct (index_in_bounds _ _ B3) as [x Hx] ];
    rewrite Hx in E; discriminate E.
Qed.

(** X7. From the epoch on the wuku index is the day of the month divided
    by 7, rounded down: it is 0 on days 1 to 6, up to 4 on days 28 to 30.
    So the wuku name is always one of the first five of the table; the other
    twenty-five are never returned. *)
Theorem wuku_is_week_of_month (LocalTZA : Z -> Z) (date : Date)
    (Hpost : getTime epochAnchor <= getTime date) :
  let r := toJavanese LocalTZA date in
  Cycle.day (wuku r) = day r / 7 /\
  0 <= Cycle.day (wuku r) <= 4 /\
  In (Cycle.name (wuku r))
     [Some "Sinta"; Some "Landep"; Some "Wukir"; Some "Kurantil"; Some "Tolu"].
Proof.
  cbv zeta. rewrite toJavanese_fields. cbn [day wuku Cycle.day Cycle.name].
  pose proof (resolution_post (elapsedDays date) (elapsedDays_nonneg date Hpost))
    as [_ Hd].
  set (yl := year_loop (elapsedDays date) 1795) in *.
  set (ml := month_loop (snd yl) (fst yl) 1) in *.
  pose proof (getDaysInJavaneseMonth_range (snd yl) (snd ml)) as Hlen.
  assert (Hq : 0 <= (fst ml + 1) / 7 <= 4)
    by (Z.to_euclidean_division_equations; lia).
  assert (E : Z.rem ((fst ml + 1) / 7) 30 = (fst ml + 1) / 7)
    by (apply Z.rem_small; lia).
  rewrite E. split; [reflexivity |]. split; [exact Hq |].
  assert (Hc : (fst ml + 1) / 7 = 0 \/ (fst ml + 1) / 7 = 1 \/ (fst ml + 1) / 7 = 2 \/
               (fst ml + 1) / 7 = 3 \/ (fst ml + 1) / 7 = 4) by lia.
  destruct Hc as [-> | [-> | [-> | [-> | ->]]]]; cbn; tauto.
Qed.

Lemma wuku_is_week_of_month_witness :
  let utc := fun _ : Z => 0 in
  let date := addDays epochAnchor 29 in
  let r := toJavanese utc date in
  getTime epochAnchor <= getTime date /\
  day r = 30 /\
  Cycle.day (wuku r) = day r / 7 /\
  0 <= Cycle.day (wuku r) <= 4 /\
  In (Cycle.name (wuku r))
     [Some "Sinta"; Some "Landep"; Some "Wukir"; Some "Kurantil"; Some "Tolu"].
Proof.
  intros utc date r.
  assert (Hpost : getTime epochAnchor <= getTime date)
    by (vm_compute; intros H; discriminate H).
  split; [exact Hpost |]. split; [vm_compute; reflexivity |].
  exact (wuku_is_week_of_month utc date Hpost).
Defined.

(** X11. The day name and the pasaran name always come as one of seven
    fixed pairs, one per day of the week; no other combination is ever
    returned. *)
Theorem weekday_pasaran_pairs (LocalTZA : Z -> Z) (date : Date) :
  let r := toJavanese LocalTZA date in
  In (dayName r, Cycle.name (pasaran r))
     [(Some "Ahad", Some "Legi"); (Some "Senin", Some "Pahing");
      (Some "Selasa", Some "Pon"); (Some "Rabu", Some "Wage");
      (Some "Kamis", Some "Kliwon"); (Some "Jumat", Some "Legi");
      (Some "Sabtu", Some "Pahing")].
Proof.
  cbv zeta. rewrite toJavanese_fields. cbn [dayName pasaran Cycle.name].
  pose proof (getDay_range LocalTZA date) as Hdow.
  destruct (weekday_cases _ Hdow) as [E | [E | [E | [E | [E | [E | E]]]]]];
    rewrite E; cbn; tauto.
Qed.

(** ** The leap-year rule on all integers *)

(** X8. For every year that is a safe integer (at most 2^53 - 1 in
    magnitude, where the source's arithmetic on doubles is exact), zero and
    negative years included, the year is a leap year exactly when it leaves
    remainder 2, 5 or 0 modulo 8 (remainder taken in 0..7). *)
Theorem leap_year_mod_8 (year : Z)
    (Hsafe : - MAX_SAFE_INTEGER <= year <= MAX_SAFE_INTEGER) :
  isJavaneseLeapYear year = true <->
  year mod 8 = 2 \/ year mod 8 = 5 \/ year mod 8 = 0.
Proof.
  clear Hsafe.
  rewrite isJavaneseLeapYear_iff, yearInCycle_spec. unfold spec_positionInCycle.
  pose proof (Z.mod_pos_bound (year - 1) 8 ltac:(lia)) as Hb.
  assert (Hrel : year mod 8 = ((year - 1) mod 8 + 1) mod 8).
  { rewrite Z.add_mod_idemp_l by lia. f_equal. lia. }
  destruct (Z.eqb_spec ((year - 1) mod 8 + 1) 1) as [E | E]; cbn [In].
  - rewrite E in Hrel. change (1 mod 8) with 1 in Hrel.
    split; intros H; exfalso; lia.
  - destruct (Z.eq_dec ((year - 1) mod 8 + 1) 8) as [E8 | E8].
    + rewrite E8 in *. change (8 mod 8) with 0 in Hrel.
      split; intros _; [right; right; exact Hrel | right; right; left; reflexivity].
    + rewrite (Z.mod_small ((year - 1) mod 8 + 1) 8) in Hrel by lia. rewrite Hrel.
      split; intros H; lia.
Qed.

Lemma leap_year_mod_8_witness :
  - MAX_SAFE_INTEGER <= -3 <= MAX_SAFE_INTEGER /\
  (isJavaneseLeapYear (-3) = true <->
   (-3) mod 8 = 2 \/ (-3) mod 8 = 5 \/ (-3) mod 8 = 0).
Proof.
  assert (Hsafe : - MAX_SAFE_INTEGER <= -3 <= MAX_SAFE_INTEGER)
    by (unfold MAX_SAFE_INTEGER; lia).
  split; [exact Hsafe | exact (leap_year_mod_8 (-3) Hsafe)].
Defined.

(** ** How far the year loop goes *)

Lemma year_loop_consumed (jd y : Z) :
  354 * (snd (year_loop jd y) - y) <= jd - fst (year_loop jd y)
    <= 355 * (snd (year_loop jd y) - y).
Proof.
  apply (year_loop_induction
           (fun jd y r => 354 * (snd r - y) <= jd - fst r <= 355 * (snd r - y))).
  - intros jd0 y0 _. cbn [fst snd]. lia.
  - intros jd0 y0 Hge IH.
    pose proof (getTotalDaysInJavaneseYear_range y0). lia.
Qed.

(** X9. From the epoch on, the number of years counted from 1795 (which is
    the number of iterations of the year loop) lies between the elapsed days
    divided by 355 and the elapsed days divided by 354, both rounded down. *)
Theorem year_bounds (LocalTZA : Z -> Z) (date : Date)
    (Hpost : getTime epochAnchor <= getTime date) :
  let r := toJavanese LocalTZA date in
  1795 + elapsedDays date / 355 <= year r <= 1795 + elapsedDays date / 354.
Proof.
  cbv zeta. rewrite toJavanese_fields. cbn [year].
  pose proof (elapsedDays_nonneg date Hpost) as Hjd.
  pose proof (year_loop_consumed (elapsedDays date) 1795) as Hc.
  pose proof (year_loop_post (elapsedDays date) 1795 Hjd) as Hp.
  pose proof (getTotalDaysInJavaneseYear_range
                (snd (year_loop (elapsedDays date) 1795))) as Hr.
  set (yl := year_loop (elapsedDays date) 1795) in *.
  split.
  - assert (elapsedDays date / 355 < snd yl - 1795 + 1); [| lia].
    apply Z.div_lt_upper_bound; lia.
  - assert (snd yl - 1795 <= elapsedDays date / 354); [| lia].
    apply Z.div_le_lower_bound; lia.
Qed.

Lemma year_bounds_witness :
  let utc := fun _ : Z => 0 in
  let date := addDays epochAnchor 58000 in
  let r := toJavanese utc date in
  getTime epochAnchor <= getTime date /\
  1795 + elapsedDays date / 355 <= year r <= 1795 + elapsedDays date / 354.
Proof.
  intros utc date r.
  assert (Hpost : getTime epochAnchor <= getTime date)
    by (vm_compute; intros H; discriminate H).
  split; [exact Hpost |].
  exact (year_bounds utc date Hpost).
Defined.

(** ** A host in the anchor's own time zone *)

(** X10. When the local offset is +7 hours (the zone in which the anchor is
    a local midnight), the day of the week is the elapsed-day count plus 2,
    modulo 7, so every field of the result is determined by the elapsed-day
    count: two instants of the same local day get identical results. *)
Theorem same_local_day_same_result (LocalTZA : Z -> Z) (d1 d2 : Date)
    (Htz1 : LocalTZA (getTime d1) = 25200000)
    (Htz2 : LocalTZA (getTime d2) = 25200000)
    (Hday : elapsedDays d1 = elapsedDays d2) :
  getDay LocalTZA d1 = (elapsedDays d1 + 2) mod 7 /\
  toJavanese LocalTZA d1 = toJavanese LocalTZA d2.
Proof.
  assert (Hdow : forall d, LocalTZA (getTime d) = 25200000 ->
                   getDay LocalTZA d = (elapsedDays d + 2) mod 7).
  { intros d Htz. unfold getDay, WeekDay, Day, elapsedDays, msPerDay.
    rewrite Htz, epochAnchor_time.
    replace (getTime d - -3244950000000)
      with (getTime d + 25200000 + 37557 * 86400000) by lia.
    rewrite Z.div_add by lia.
    replace ((getTime d + 25200000) / 86400000 + 37557 + 2)
      with ((getTime d + 25200000) / 86400000 + 4 + 5365 * 7) by lia.
    rewrite Z.mod_add by lia. reflexivity. }
  split; [apply Hdow; exact Htz1 |].
  rewrite !toJavanese_fields, (Hdow d1 Htz1), (Hdow d2 Htz2), Hday. reflexivity.
Qed.

Lemma same_local_day_same_result_witness :
  let wib := fun _ : Z => 25200000 in
  let d1 := addDays epochAnchor 100 in
  let d2 := mkDate (getTime (addDays epochAnchor 100) + 86399999) in
  wib (getTime d1) = 25200000 /\ wib (getTime d2) = 25200000 /\
  elapsedDays d1 = elapsedDays d2 /\
  getDay wib d1 = (elapsedDays d1 + 2) mod 7 /\
  toJavanese wib d1 = toJavanese wib d2.
Proof.
  intros wib d1 d2.
  assert (Hday : elapsedDays d1 = elapsedDays d2) by (vm_compute; reflexivity).
  split; [reflexivity |]. split; [reflexivity |]. split; [exact Hday |].
  exact (same_local_day_same_result wib d1 d2 eq_refl eq_refl Hday).
Defined.

(** ** Every date is reached *)

Lemma sumMonths_nonneg (y : Z) (n : nat) : forall m, 0 <= sumMonths y m n.
Proof.
  induction n as [| n IH]; intros m; cbn [sumMonths]; [lia |].
  pose proof (getDaysInJavaneseMonth_range y m). pose proof (IH (m + 1)). lia.
Qed.

(** Starting [n] whole months further on is starting [n] months later. *)
Lemma month_loop_skip (y : Z) (n : nat) :
  forall m jd, 0 <= jd ->
    month_loop y (sumMonths y m n + jd) m = month_loop y jd (m + Z.of_nat n).
Proof.
  induction n as [| n IH]; intros m jd Hjd.
  - cbn [sumMonths]. rewrite Z.add_0_l, Z.add_0_r. reflexivity.
  - cbn [sumMonths].
    pose proof (sumMonths_nonneg y n (m + 1)) as Hs.
    rewrite month_loop_step by lia.
    replace (getDaysInJavaneseMonth y m + sumMonths y (m + 1) n + jd
             - getDaysInJavaneseMonth y m)
      with (sumMonths y (m + 1) n + jd) by lia.
    rewrite IH by exact Hjd. f_equal. lia.
Qed.

(** X12. Every date of the calendar is produced: for a year from 1795 on, a
    month between 1 and 12 and a day between 1 and the length of that month,
    the instant that many days after the anchor (the years before, the
    months before, the days before) converts to exactly that year, month
    and day. *)
Theorem every_date_reached (LocalTZA : Z -> Z) (y m d : Z)
    (Hy : 1795 <= y) (Hm : 1 <= m <= 12)
    (Hd : 1 <= d <= getDaysInJavaneseMonth y m) :
  ymd (toJavanese LocalTZA
         (addDays epochAnchor (daysBeforeYear y + daysBeforeMonth y m + (d - 1))))
  = (y, m, d).
Proof.
  unfold ymd. rewrite toJavanese_fields. cbn [year month day].
  rewrite elapsedDays_addDays.
  change (elapsedDays epochAnchor) with 0. rewrite Z.add_0_l.
  pose proof (month_end_in_year y m Hm) as [Hend _].
  assert (Hbm : 0 <= daysBeforeMonth y m) by apply sumMonths_nonneg.
  unfold daysBeforeYear.
  rewrite <- Z.add_assoc, year_loop_skip by lia.
  replace (1795 + Z.of_nat (Z.to_nat (y - 1795))) with y by lia.
  rewrite year_loop_stop by lia. cbn [fst snd].
  unfold daysBeforeMonth.
  rewrite month_loop_skip by lia.
  replace (1 + Z.of_nat (Z.to_nat (m - 1))) with m by lia.
  rewrite month_loop_stop by lia. cbn [fst snd].
  f_equal. lia.
Qed.

Lemma every_date_reached_witness :
  let utc := fun _ : Z => 0 in
  1795 <= 1802 /\ 1 <= 12 <= 12 /\ 1 <= 30 <= getDaysInJavaneseMonth 1802 12 /\
  ymd (toJavanese utc
         (addDays epochAnchor
            (daysBeforeYear 1802 + daysBeforeMonth 1802 12 + (30 - 1))))
  = (1802, 12, 30).
Proof.
  intros utc.
  assert (Hy : 1795 <= 1802) by lia.
  assert (Hm : 1 <= 12 <= 12) by lia.
  assert (Hd : 1 <= 30 <= getDaysInJavaneseMonth 1802 12)
    by (vm_compute; split; intros H; discriminate H).
  split; [exact Hy |]. split; [exact Hm |]. split; [exact Hd |].
  exact (every_date_reached utc 1802 12 30 Hy Hm Hd).
Defined.
